(** * decman.config: command builders and configuration values

    A shallow embedding of [src/decman/config.py].  Every method of the
    Python class [Commands] returns an argument vector ([list[str]]); here
    a vector is a [list string] and a token a [string].  No method body
    reads [self], so each one is a closed function of its arguments. *)

From Stdlib Require Import String List ZArith Bool Lia Permutation.
Import ListNotations.
Local Open Scope string_scope.
Local Open Scope list_scope.

(** ** The default commands, as typed by their annotations *)

Module Commands.

Definition list_pkgs : list string :=
  ["pacman"; "-Qeq"; "--color=never"].

Definition list_foreign_pkgs_versioned : list string :=
  ["pacman"; "-Qm"; "--color=never"].

Definition install_pkgs (pkgs : list string) : list string :=
  ["pacman"; "-S"; "--asexplicit"] ++ pkgs.

Definition install_files (pkg_files : list string) : list string :=
  ["pacman"; "-U"; "--asdeps"] ++ pkg_files.

Definition set_as_explicitly_installed (pkgs : list string) : list string :=
  ["pacman"; "-D"; "--asexplicit"] ++ pkgs.

Definition install_deps (deps : list string) : list string :=
  ["pacman"; "-S"; "--needed"; "--asdeps"] ++ deps.

Definition is_installable (pkg : string) : list string :=
  ["pacman"; "-Sddp"; pkg].

Definition upgrade : list string :=
  ["pacman"; "-Syu"].

Definition remove (pkgs : list string) : list string :=
  ["pacman"; "-Rs"] ++ pkgs.

Definition enable_units (units : list string) : list string :=
  ["systemctl"; "enable"; "--now"; "--quiet"] ++ units.

Definition disable_units (units : list string) : list string :=
  ["systemctl"; "disable"; "--quiet"] ++ units.

Definition enable_user_units (units : list string) : list string :=
  ["systemctl"; "enable"; "--now"; "--quiet"; "--user"] ++ units.

Definition disable_user_units (units : list string) : list string :=
  ["systemctl"; "disable"; "--quiet"] ++ units.

Definition compare_versions (installed_version new_version : string)
  : list string :=
  ["vercmp"; installed_version; new_version].

Definition git_clone (repo dest : string) : list string :=
  ["git"; "clone"; repo; dest].

Definition git_diff (from_commit : string) : list string :=
  ["git"; "diff"; from_commit].

Definition git_get_commit_id : list string :=
  ["git"; "rev-parse"; "HEAD"].

Definition review_file (file : string) : list string :=
  ["less"; file].

Definition make_chroot (chroot_root_dir : string) (with_pkgs : list string)
  : list string :=
  ["mkarchroot"; chroot_root_dir] ++ with_pkgs.

(** The [for] loop of [make_chroot_pkg]: each round extends the command
    built so far by the two tokens ["-I"] and the package file. *)
Definition make_chroot_pkg (chroot_dir user : string)
           (pkgfiles_to_install : list string) : list string :=
  let makechrootpkg_cmd := ["makechrootpkg"; "-r"; chroot_dir; "-U"; user] in
  fold_left (fun cmd pkgfile => cmd ++ ["-I"; pkgfile])
            pkgfiles_to_install makechrootpkg_cmd.

End Commands.

(** ** Methods, their argument types, and instances of the class *)

Module Method.

Inductive t : Set :=
| list_pkgs | list_foreign_pkgs_versioned | install_pkgs | install_files
| set_as_explicitly_installed | install_deps | is_installable | upgrade
| remove | enable_units | disable_units | enable_user_units
| disable_user_units | compare_versions | git_clone | git_diff
| git_get_commit_id | review_file | make_chroot | make_chroot_pkg.

(** The parameters of a method after [self], from its signature. *)
Definition sig (m : t) : Set :=
  match m with
  | list_pkgs | list_foreign_pkgs_versioned | upgrade | git_get_commit_id =>
      unit
  | install_pkgs | install_files | set_as_explicitly_installed
  | install_deps | remove | enable_units | disable_units
  | enable_user_units | disable_user_units =>
      list string
  | is_installable | git_diff | review_file => string
  | compare_versions | git_clone => (string * string)%type
  | make_chroot => (string * list string)%type
  | make_chroot_pkg => (string * string * list string)%type
  end.

End Method.

(** An instance answers every method call with a vector. *)
Definition instance : Type := forall m : Method.t, Method.sig m -> list string.

(** [Commands()]: an instance of the default class. *)
Definition Commands_new : instance :=
  fun m =>
    match m return Method.sig m -> list string with
    | Method.list_pkgs => fun _ => Commands.list_pkgs
    | Method.list_foreign_pkgs_versioned =>
        fun _ => Commands.list_foreign_pkgs_versioned
    | Method.install_pkgs => Commands.install_pkgs
    | Method.install_files => Commands.install_files
    | Method.set_as_explicitly_installed =>
        Commands.set_as_explicitly_installed
    | Method.install_deps => Commands.install_deps
    | Method.is_installable => Commands.is_installable
    | Method.upgrade => fun _ => Commands.upgrade
    | Method.remove => Commands.remove
    | Method.enable_units => Commands.enable_units
    | Method.disable_units => Commands.disable_units
    | Method.enable_user_units => Commands.enable_user_units
    | Method.disable_user_units => Commands.disable_user_units
    | Method.compare_versions =>
        fun '(installed_version, new_version) =>
          Commands.compare_versions installed_version new_version
    | Method.git_clone => fun '(repo, dest) => Commands.git_clone repo dest
    | Method.git_diff => Commands.git_diff
    | Method.git_get_commit_id => fun _ => Commands.git_get_commit_id
    | Method.review_file => Commands.review_file
    | Method.make_chroot =>
        fun '(chroot_root_dir, with_pkgs) =>
          Commands.make_chroot chroot_root_dir with_pkgs
    | Method.make_chroot_pkg =>
        fun '(chroot_dir, user, pkgfiles_to_install) =>
          Commands.make_chroot_pkg chroot_dir user pkgfiles_to_install
    end.

(** A child class of [Commands]: the methods its own body defines.  A
    method it does not define is looked up in the parent class. *)
Definition child_class : Type :=
  forall m : Method.t, option (Method.sig m -> list string).

Definition child_new (cls : child_class) : instance :=
  fun m =>
    match cls m with
    | Some method => method
    | None => Commands_new m
    end.

(** ** Module-level configuration *)

Record config : Type := Config {
  commands : instance;
  debug_output : bool;
  quiet_output : bool;
  valid_pkgexts : list string;
  makepkg_user : string;
  build_dir : string;
  pkg_cache_dir : string;
  aur_rpc_timeout : option Z
}.

(** The values the module's globals hold once it has been imported. *)
Definition initial : config := {|
  commands := Commands_new;
  debug_output := false;
  quiet_output := false;
  valid_pkgexts :=
    [".pkg.tar"; ".pkg.tar.gz"; ".pkg.tar.bz2"; ".pkg.tar.xz";
     ".pkg.tar.zst"; ".pkg.tar.lzo"; ".pkg.tar.lrz"; ".pkg.tar.lz4";
     ".pkg.tar.lz"; ".pkg.tar.Z"];
  makepkg_user := "nobody";
  build_dir := "/tmp/decman/build";
  pkg_cache_dir := "/var/cache/decman";
  aur_rpc_timeout := Some 30%Z
|}.

(** [decman.config.commands = c] *)
Definition set_commands (c : instance) (cfg : config) : config :=
  {| commands := c;
     debug_output := debug_output cfg;
     quiet_output := quiet_output cfg;
     valid_pkgexts := valid_pkgexts cfg;
     makepkg_user := makepkg_user cfg;
     build_dir := build_dir cfg;
     pkg_cache_dir := pkg_cache_dir cfg;
     aur_rpc_timeout := aur_rpc_timeout cfg |}.

(** [decman.config.aur_rpc_timeout = t], where [None] is Python's [None]. *)
Definition set_aur_rpc_timeout (t : option Z) (cfg : config) : config :=
  {| commands := commands cfg;
     debug_output := debug_output cfg;
     quiet_output := quiet_output cfg;
     valid_pkgexts := valid_pkgexts cfg;
     makepkg_user := makepkg_user cfg;
     build_dir := build_dir cfg;
     pkg_cache_dir := pkg_cache_dir cfg;
     aur_rpc_timeout := t |}.

(** ** The same methods over untyped Python values

    Python checks no annotation: a method receives whatever the caller
    passes, and the list operations it uses raise [TypeError] on operands
    they do not accept.  This reading keeps those failures. *)

Module Py.

#[local] Set Warnings "-register-all".

Inductive value : Type :=
| VNone
| VInt (z : Z)
| VStr (s : string)
| VList (l : list value).

Inductive exn : Set := TypeError.

Inductive result (A : Type) : Type :=
| Ok (a : A)
| Raise (e : exn).
Arguments Ok {A} a.
Arguments Raise {A} e.

Definition bind {A B : Type} (r : result A) (k : A -> result B) : result B :=
  match r with
  | Ok a => k a
  | Raise e => Raise e
  end.

(** [a + b] *)
Definition add (a b : value) : result value :=
  match a, b with
  | VList x, VList y => Ok (VList (x ++ y))
  | VStr x, VStr y => Ok (VStr (x ++ y))
  | VInt x, VInt y => Ok (VInt (x + y))
  | _, _ => Raise TypeError
  end.

(** The items a [for] loop draws from [v]; a string yields its
    characters, [None] and integers are not iterable. *)
Definition iter (v : value) : result (list value) :=
  match v with
  | VList l => Ok l
  | VStr s =>
      Ok (map (fun c => VStr (String c EmptyString)) (list_ascii_of_string s))
  | VNone | VInt _ => Raise TypeError
  end.

Definition is_str (v : value) : bool :=
  match v with VStr _ => true | _ => false end.

(** [list[str]] *)
Definition is_str_list (v : value) : bool :=
  match v with VList l => forallb is_str l | _ => false end.

Definition str_list (l : list string) : value := VList (map VStr l).

End Py.

Module Dyn.
Import Py.

Notation "x <- c ;; k" := (bind c (fun x => k))
  (at level 61, c at next level, right associativity).

Definition list_pkgs : result value :=
  Ok (VList [VStr "pacman"; VStr "-Qeq"; VStr "--color=never"]).

Definition list_foreign_pkgs_versioned : result value :=
  Ok (VList [VStr "pacman"; VStr "-Qm"; VStr "--color=never"]).

Definition install_pkgs (pkgs : value) : result value :=
  add (VList [VStr "pacman"; VStr "-S"; VStr "--asexplicit"]) pkgs.

Definition install_files (pkg_files : value) : result value :=
  add (VList [VStr "pacman"; VStr "-U"; VStr "--asdeps"]) pkg_files.

Definition set_as_explicitly_installed (pkgs : value) : result value :=
  add (VList [VStr "pacman"; VStr "-D"; VStr "--asexplicit"]) pkgs.

Definition install_deps (deps : value) : result value :=
  add (VList [VStr "pacman"; VStr "-S"; VStr "--needed"; VStr "--asdeps"])
      deps.

Definition is_installable (pkg : value) : result value :=
  Ok (VList [VStr "pacman"; VStr "-Sddp"; pkg]).

Definition upgrade : result value :=
  Ok (VList [VStr "pacman"; VStr "-Syu"]).

Definition remove (pkgs : value) : result value :=
  add (VList [VStr "pacman"; VStr "-Rs"]) pkgs.

Definition enable_units (units : value) : result value :=
  add (VList [VStr "systemctl"; VStr "enable"; VStr "--now"; VStr "--quiet"])
      units.

Definition disable_units (units : value) : result value :=
  add (VList [VStr "systemctl"; VStr "disable"; VStr "--quiet"]) units.

Definition enable_user_units (units : value) : result value :=
  add (VList [VStr "systemctl"; VStr "enable"; VStr "--now"; VStr "--quiet";
              VStr "--user"])
      units.

Definition disable_user_units (units : value) : result value :=
  add (VList [VStr "systemctl"; VStr "disable"; VStr "--quiet"]) units.

Definition compare_versions (installed_version new_version : value)
  : result value :=
  Ok (VList [VStr "vercmp"; installed_version; new_version]).

Definition git_clone (repo dest : value) : result value :=
  Ok (VList [VStr "git"; VStr "clone"; repo; dest]).

Definition git_diff (from_commit : value) : result value :=
  Ok (VList [VStr "git"; VStr "diff"; from_commit]).

Definition git_get_commit_id : result value :=
  Ok (VList [VStr "git"; VStr "rev-parse"; VStr "HEAD"]).

Definition review_file (file : value) : result value :=
  Ok (VList [VStr "less"; file]).

Definition make_chroot (chroot_root_dir with_pkgs : value) : result value :=
  add (VList [VStr "mkarchroot"; chroot_root_dir]) with_pkgs.

(** [makechrootpkg_cmd] is a list and the right operand of [+=] a list
    display, so the loop body cannot raise; only drawing the items can. *)
Definition make_chroot_pkg (chroot_dir user pkgfiles_to_install : value)
  : result value :=
  let makechrootpkg_cmd :=
    [VStr "makechrootpkg"; VStr "-r"; chroot_dir; VStr "-U"; user] in
  items <- iter pkgfiles_to_install ;;
  Ok (VList (fold_left (fun cmd pkgfile => cmd ++ [VStr "-I"; pkgfile])
                       items makechrootpkg_cmd)).

(** Calling method [m] of [Commands()] with the positional arguments
    [args]; a wrong number of arguments is a [TypeError]. *)
Definition invoke (m : Method.t) (args : list value) : result value :=
  match m, args with
  | Method.list_pkgs, [] => list_pkgs
  | Method.list_foreign_pkgs_versioned, [] => list_foreign_pkgs_versioned
  | Method.install_pkgs, [pkgs] => install_pkgs pkgs
  | Method.install_files, [pkg_files] => install_files pkg_files
  | Method.set_as_explicitly_installed, [pkgs] =>
      set_as_explicitly_installed pkgs
  | Method.install_deps, [deps] => install_deps deps
  | Method.is_installable, [pkg] => is_installable pkg
  | Method.upgrade, [] => upgrade
  | Method.remove, [pkgs] => remove pkgs
  | Method.enable_units, [units] => enable_units units
  | Method.disable_units, [units] => disable_units units
  | Method.enable_user_units, [units] => enable_user_units units
  | Method.disable_user_units, [units] => disable_user_units units
  | Method.compare_versions, [installed_version; new_version] =>
      compare_versions installed_version new_version
  | Method.git_clone, [repo; dest] => git_clone repo dest
  | Method.git_diff, [from_commit] => git_diff from_commit
  | Method.git_get_commit_id, [] => git_get_commit_id
  | Method.review_file, [file] => review_file file
  | Method.make_chroot, [chroot_root_dir; with_pkgs] =>
      make_chroot chroot_root_dir with_pkgs
  | Method.make_chroot_pkg, [chroot_dir; user; pkgfiles_to_install] =>
      make_chroot_pkg chroot_dir user pkgfiles_to_install
  | _, _ => Raise TypeError
  end.

(** The parameter annotations of each method, in order. *)
Definition annotations (m : Method.t) : list (value -> bool) :=
  match m with
  | Method.list_pkgs | Method.list_foreign_pkgs_versioned
  | Method.upgrade | Method.git_get_commit_id => []
  | Method.install_pkgs | Method.install_files
  | Method.set_as_explicitly_installed | Method.install_deps
  | Method.remove | Method.enable_units | Method.disable_units
  | Method.enable_user_units | Method.disable_user_units => [is_str_list]
  | Method.is_installable | Method.git_diff | Method.review_file => [is_str]
  | Method.compare_versions | Method.git_clone => [is_str; is_str]
  | Method.make_chroot => [is_str; is_str_list]
  | Method.make_chroot_pkg => [is_str; is_str; is_str_list]
  end.

Fixpoint conforms (tys : list (value -> bool)) (args : list value) : bool :=
  match tys, args with
  | [], [] => true
  | ty :: tys', a :: args' => ty a && conforms tys' args'
  | _, _ => false
  end.

(** The arguments are as many as the parameters and each has the type
    its parameter is annotated with. *)
Definition well_typed (m : Method.t) (args : list value) : bool :=
  conforms (annotations m) args.

(** Typed arguments as the Python values a caller passes. *)
Definition encode (m : Method.t) : Method.sig m -> list value :=
  match m return Method.sig m -> list value with
  | Method.list_pkgs | Method.list_foreign_pkgs_versioned
  | Method.upgrade | Method.git_get_commit_id => fun _ => []
  | Method.install_pkgs | Method.install_files
  | Method.set_as_explicitly_installed | Method.install_deps
  | Method.remove | Method.enable_units | Method.disable_units
  | Method.enable_user_units | Method.disable_user_units =>
      fun l => [str_list l]
  | Method.is_installable | Method.git_diff | Method.review_file =>
      fun s => [VStr s]
  | Method.compare_versions | Method.git_clone =>
      fun '(a, b) => [VStr a; VStr b]
  | Method.make_chroot => fun '(d, l) => [VStr d; str_list l]
  | Method.make_chroot_pkg =>
      fun '(d, u, l) => [VStr d; VStr u; str_list l]
  end.

End Dyn.

(** ** The methods that take a list *)

Module ListOp.

(** A list-taking method together with its other arguments. *)
Inductive t : Set :=
| install_pkgs | install_files | set_as_explicitly_installed
| install_deps | remove | enable_units | disable_units
| enable_user_units | disable_user_units
| make_chroot (chroot_root_dir : string)
| make_chroot_pkg (chroot_dir user : string).

Definition run (cmds : instance) (o : t) (l : list string) : list string :=
  match o with
  | install_pkgs => cmds Method.install_pkgs l
  | install_files => cmds Method.install_files l
  | set_as_explicitly_installed => cmds Method.set_as_explicitly_installed l
  | install_deps => cmds Method.install_deps l
  | remove => cmds Method.remove l
  | enable_units => cmds Method.enable_units l
  | disable_units => cmds Method.disable_units l
  | enable_user_units => cmds Method.enable_user_units l
  | disable_user_units => cmds Method.disable_user_units l
  | make_chroot d => cmds Method.make_chroot (d, l)
  | make_chroot_pkg d u => cmds Method.make_chroot_pkg (d, u, l)
  end.

(** The tokens the default method writes before it reaches its list. *)
Definition prefix (o : t) : list string :=
  match o with
  | install_pkgs => ["pacman"; "-S"; "--asexplicit"]
  | install_files => ["pacman"; "-U"; "--asdeps"]
  | set_as_explicitly_installed => ["pacman"; "-D"; "--asexplicit"]
  | install_deps => ["pacman"; "-S"; "--needed"; "--asdeps"]
  | remove => ["pacman"; "-Rs"]
  | enable_units => ["systemctl"; "enable"; "--now"; "--quiet"]
  | disable_units => ["systemctl"; "disable"; "--quiet"]
  | enable_user_units =>
      ["systemctl"; "enable"; "--now"; "--quiet"; "--user"]
  | disable_user_units => ["systemctl"; "disable"; "--quiet"]
  | make_chroot d => ["mkarchroot"; d]
  | make_chroot_pkg d u => ["makechrootpkg"; "-r"; d; "-U"; u]
  end.

(** How many tokens each list item contributes: [make_chroot_pkg] puts
    a ["-I"] in front of every item, the others write the item alone. *)
Definition stride (o : t) : nat :=
  match o with
  | make_chroot_pkg _ _ => 2
  | _ => 1
  end.

(** The index in the output at which the [i]-th list item stands. *)
Definition slot (o : t) (i : nat) : nat :=
  length (prefix o) + stride o * i + (stride o - 1).

(** The tokens that follow the prefix. *)
Definition payload (o : t) (l : list string) : list string :=
  match o with
  | make_chroot_pkg _ _ => flat_map (fun pkgfile => ["-I"; pkgfile]) l
  | _ => l
  end.

End ListOp.

(** The external program each method addresses. *)
Definition program (m : Method.t) : string :=
  match m with
  | Method.list_pkgs | Method.list_foreign_pkgs_versioned
  | Method.install_pkgs | Method.install_files
  | Method.set_as_explicitly_installed | Method.install_deps
  | Method.is_installable | Method.upgrade | Method.remove => "pacman"
  | Method.enable_units | Method.disable_units
  | Method.enable_user_units | Method.disable_user_units => "systemctl"
  | Method.compare_versions => "vercmp"
  | Method.git_clone | Method.git_diff | Method.git_get_commit_id => "git"
  | Method.review_file => "less"
  | Method.make_chroot => "mkarchroot"
  | Method.make_chroot_pkg => "makechrootpkg"
  end.

Definition programs : list string :=
  ["pacman"; "systemctl"; "vercmp"; "git"; "less"; "mkarchroot";
   "makechrootpkg"].

(** The flag that scopes a [systemctl] call to the calling user's session. *)
Definition user_flag : string := "--user".

(** ** Recognising package files *)

(** Python's [s.endswith(suffix)]: some tail of [s] is [suffix]. *)
Fixpoint endswith (s suffix : string) : bool :=
  if String.eqb s suffix then true
  else match s with
       | EmptyString => false
       | String _ s' => endswith s' suffix
       end.

(** Modelled from the spec: the membership test on [valid_pkgexts] is in a
    module of decman that reads this list, not in [config.py].  A file name
    is recognized when it ends with one of the listed suffixes. *)
Definition recognized (exts : list string) (name : string) : bool :=
  existsb (endswith name) exts.

(** ** A child class that overrides one method *)

(** A child of [Commands] whose body defines [review_file] alone. *)
Definition cat_reviewer : child_class :=
  fun m =>
    match m return option (Method.sig m -> list string) with
    | Method.review_file => Some (fun file => ["cat"; file])
    | _ => None
    end.

(** ** Which untyped calls go through *)

(** The operands the [+] of a list display accepts: lists only. *)
Definition is_list (v : Py.value) : bool :=
  match v with Py.VList _ => true | _ => false end.

(** The values a [for] loop can run over: lists and strings. *)
Definition is_iterable (v : Py.value) : bool :=
  match v with Py.VList _ | Py.VStr _ => true | _ => false end.

(** The shape of the arguments each method needs in order to return: the
    right number of them, a list where the body adds to a list display,
    something iterable where it loops; nothing is asked of the others. *)
Definition accepted (m : Method.t) (args : list Py.value) : bool :=
  match m, args with
  | (Method.list_pkgs | Method.list_foreign_pkgs_versioned
    | Method.upgrade | Method.git_get_commit_id), [] => true
  | (Method.install_pkgs | Method.install_files
    | Method.set_as_explicitly_installed | Method.install_deps
    | Method.remove | Method.enable_units | Method.disable_units
    | Method.enable_user_units | Method.disable_user_units), [v] => is_list v
  | (Method.is_installable | Method.git_diff | Method.review_file), [_] =>
      true
  | (Method.compare_versions | Method.git_clone), [_; _] => true
  | Method.make_chroot, [_; v] => is_list v
  | Method.make_chroot_pkg, [_; _; v] => is_iterable v
  | _, _ => false
  end.

(** The methods whose vectors call [systemctl enable], and those whose
    vectors call [systemctl disable]. *)
Definition enabling : list Method.t :=
  [Method.enable_units; Method.enable_user_units].

Definition disabling : list Method.t :=
  [Method.disable_units; Method.disable_user_units].

(** * Properties *)

(** ** Shared lemmas *)

Section Loop.
Context {A : Type} (step : A -> list A).

(** A loop that extends an accumulator appends the pieces in order. *)
Lemma fold_left_extend (l : list A) :
  forall acc,
    fold_left (fun cmd x => cmd ++ step x) l acc = acc ++ flat_map step l.
Proof.
  induction l as [|x l IH]; intros acc; simpl.
  - now rewrite app_nil_r.
  - now rewrite IH, app_assoc.
Qed.
End Loop.

Lemma make_chroot_pkg_unfold (chroot_dir user : string) (l : list string) :
  Commands.make_chroot_pkg chroot_dir user l =
  ["makechrootpkg"; "-r"; chroot_dir; "-U"; user]
    ++ flat_map (fun pkgfile => ["-I"; pkgfile]) l.
Proof.
  unfold Commands.make_chroot_pkg.
  apply (fold_left_extend (fun pkgfile => ["-I"; pkgfile])).
Qed.

Lemma run_default (o : ListOp.t) (l : list string) :
  ListOp.run Commands_new o l = ListOp.prefix o ++ ListOp.payload o l.
Proof.
  destruct o; try reflexivity.
  simpl. apply make_chroot_pkg_unfold.
Qed.

Lemma nth_error_after {A : Type} (p l : list A) (i : nat) :
  nth_error (p ++ l) (length p + i) = nth_error l i.
Proof.
  induction p as [|x p IH]; simpl; auto.
Qed.

Lemma nth_error_flagged (flag : string) (l : list string) :
  forall i,
    nth_error (flat_map (fun x => [flag; x]) l) (2 * i + 1) = nth_error l i.
Proof.
  induction l as [|x l IH]; intros [|i]; simpl; auto.
  replace (i + S (i + 0) + 1) with (S (2 * i + 1)) by lia.
  apply IH.
Qed.

Lemma length_flagged (flag : string) (l : list string) :
  length (flat_map (fun x => [flag; x]) l) = 2 * length l.
Proof.
  induction l as [|x l IH]; simpl; auto. rewrite IH. lia.
Qed.

(** ** Golden vectors *)

(** C1: the default [install_pkgs] on ["foo"; "bar"] and the default
    [make_chroot_pkg] on "/c", "build" and two package files return
    exactly the vectors the specification lists. *)
Theorem golden_vectors :
  commands initial Method.install_pkgs ["foo"; "bar"]
  = ["pacman"; "-S"; "--asexplicit"; "foo"; "bar"]
  /\ commands initial Method.make_chroot_pkg
       ("/c", "build", ["a.pkg.tar.zst"; "b.pkg.tar.zst"])
     = ["makechrootpkg"; "-r"; "/c"; "-U"; "build";
        "-I"; "a.pkg.tar.zst"; "-I"; "b.pkg.tar.zst"].
Proof. split; reflexivity. Qed.

(** ** User-scoped units *)

(** C2, evaluated on the code: [enable_user_units] is [enable_units] with
    the user-session flag put before the units, but [disable_user_units]
    returns the very vector of [disable_units]: it is never the vector of
    [disable_units] with the flag put before the units, and the flag occurs
    in it only where a unit is itself named so. *)
Theorem disable_user_units_unscoped (units : list string) :
  Commands.enable_user_units units
  = Commands.enable_units [] ++ [user_flag] ++ units
  /\ Commands.disable_user_units units = Commands.disable_units units
  /\ Commands.disable_user_units units
     <> Commands.disable_units [] ++ [user_flag] ++ units
  /\ (In user_flag (Commands.disable_user_units units) <-> In user_flag units)
  /\ Commands.disable_user_units ["foo.service"]
     = ["systemctl"; "disable"; "--quiet"; "foo.service"].
Proof.
  repeat split; try reflexivity.
  - intros E. apply (f_equal (@length string)) in E.
    simpl in E. lia.
  - unfold user_flag; simpl; intros H.
    repeat (destruct H as [H|H]; [discriminate H|]); exact H.
  - intros H. unfold Commands.disable_user_units.
    apply in_or_app; now right.
Qed.

(** ** First token *)

(** C3: whatever the arguments, a default method returns a vector that
    starts with the program of that method, one of the seven programs. *)
Theorem first_token_is_program (m : Method.t) (a : Method.sig m) :
  (exists rest, Commands_new m a = program m :: rest)
  /\ hd_error (Commands_new m a) = Some (program m)
  /\ 1 <= length (Commands_new m a)
  /\ In (program m) programs.
Proof.
  assert (E : exists rest, Commands_new m a = program m :: rest).
  { destruct m; simpl in a |- *;
      repeat match goal with p : (_ * _)%type |- _ => destruct p end;
      try (eexists; reflexivity).
    rewrite make_chroot_pkg_unfold. eexists; reflexivity. }
  destruct E as [rest E]. rewrite E.
  repeat split.
  - now exists rest.
  - simpl; lia.
  - destruct m; simpl; tauto.
Qed.

(** ** List items are passed through *)

(** C4: a default list-taking method returns its fixed prefix followed by
    the items; the [i]-th item stands, unchanged and as one token, at
    index [slot o i], the slots increase with [i], and the output has no
    tokens besides the prefix and [stride o] tokens per item. *)
Theorem list_items_verbatim (o : ListOp.t) (l : list string) (i : nat) :
  ListOp.run Commands_new o l = ListOp.prefix o ++ ListOp.payload o l
  /\ firstn (length (ListOp.prefix o)) (ListOp.run Commands_new o l)
     = ListOp.prefix o
  /\ nth_error (ListOp.run Commands_new o l) (ListOp.slot o i) = nth_error l i
  /\ ListOp.slot o i < ListOp.slot o (S i)
  /\ length (ListOp.run Commands_new o l)
     = length (ListOp.prefix o) + ListOp.stride o * length l.
Proof.
  rewrite run_default. split; [reflexivity|]. split.
  { rewrite firstn_app, Nat.sub_diag, firstn_all. simpl. apply app_nil_r. }
  split.
  { unfold ListOp.slot. rewrite <- Nat.add_assoc, nth_error_after.
    destruct o; simpl ListOp.stride; simpl ListOp.payload;
      try (f_equal; lia).
    replace (2 * i + (2 - 1)) with (2 * i + 1) by lia.
    apply nth_error_flagged. }
  split.
  { unfold ListOp.slot. destruct o; simpl; lia. }
  rewrite length_app. f_equal.
  destruct o; simpl ListOp.stride; simpl ListOp.payload;
    try lia.
  apply length_flagged.
Qed.

(** ** Overriding one method *)

Lemma child_new_inherits (cls : child_class) (m : Method.t) :
  cls m = None -> child_new cls m = Commands_new m.
Proof. unfold child_new. now intros ->. Qed.

Lemma child_new_overrides (cls : child_class) (m : Method.t) method :
  cls m = Some method -> child_new cls m = method.
Proof. unfold child_new. now intros ->. Qed.

(** C5: when a child class defines the method [m0] alone and an instance
    of it is assigned to [commands], every other method called through
    [commands] returns the vector of the default class. *)
Theorem override_one_keeps_rest
        (cls : child_class) (m0 : Method.t) (cfg : config)
        (Hone : forall m, m <> m0 -> cls m = None)
        (m : Method.t) (Hm : m <> m0) (a : Method.sig m) :
  commands (set_commands (child_new cls) cfg) m a = Commands_new m a.
Proof.
  simpl. now rewrite (child_new_inherits cls m (Hone m Hm)).
Qed.

Lemma override_one_keeps_rest_witness :
  commands (set_commands (child_new cat_reviewer) initial)
           Method.install_pkgs ["foo"]
  = ["pacman"; "-S"; "--asexplicit"; "foo"]
  /\ commands (set_commands (child_new cat_reviewer) initial)
              Method.review_file "PKGBUILD"
     <> Commands_new Method.review_file "PKGBUILD".
Proof.
  split.
  - change ["pacman"; "-S"; "--asexplicit"; "foo"]
      with (Commands_new Method.install_pkgs ["foo"]).
    apply (override_one_keeps_rest cat_reviewer Method.review_file initial).
    + intros m Hm. destruct m; try reflexivity. now elim Hm.
    + discriminate.
  - simpl. discriminate.
Defined.

(** ** Construction cannot fail *)

Lemma is_str_inv (v : Py.value) :
  Py.is_str v = true -> exists s, v = Py.VStr s.
Proof. destruct v; try discriminate. intros _. now eexists. Qed.

Lemma forallb_is_str_inv (l : list Py.value) :
  forallb Py.is_str l = true -> exists toks, l = map Py.VStr toks.
Proof.
  induction l as [|v l IH]; simpl; intros H.
  - now exists [].
  - apply andb_true_iff in H as [Hv Hl].
    destruct (is_str_inv v Hv) as [s ->], (IH Hl) as [toks ->].
    now exists (s :: toks).
Qed.

Lemma is_str_list_inv (v : Py.value) :
  Py.is_str_list v = true -> exists toks, v = Py.str_list toks.
Proof.
  destruct v; try discriminate. simpl. intros H.
  destruct (forallb_is_str_inv l H) as [toks ->]. now exists toks.
Qed.

Lemma is_str_list_str_list (toks : list string) :
  Py.is_str_list (Py.str_list toks) = true.
Proof. simpl. induction toks; simpl; auto. Qed.

Lemma dyn_make_chroot_pkg_typed (d u : string) (l : list string) :
  Dyn.make_chroot_pkg (Py.VStr d) (Py.VStr u) (Py.str_list l)
  = Py.Ok (Py.str_list (Commands.make_chroot_pkg d u l)).
Proof.
  unfold Dyn.make_chroot_pkg, Py.str_list, Py.iter, Py.bind.
  do 2 f_equal.
  rewrite make_chroot_pkg_unfold,
    (fold_left_extend (fun pkgfile => [Py.VStr "-I"; pkgfile])).
  rewrite map_app. f_equal.
  induction l as [|x l IH]; simpl; [reflexivity|now rewrite IH].
Qed.

Lemma dyn_invoke_encode (m : Method.t) (a : Method.sig m) :
  Dyn.invoke m (Dyn.encode m a) = Py.Ok (Py.str_list (Commands_new m a)).
Proof.
  destruct m; simpl in a |- *;
    repeat match goal with p : (_ * _)%type |- _ => destruct p end;
    try reflexivity;
    try (unfold Py.str_list; simpl; now rewrite ?map_app).
  apply dyn_make_chroot_pkg_typed.
Qed.

Lemma well_typed_encode (m : Method.t) (a : Method.sig m) :
  Dyn.well_typed m (Dyn.encode m a) = true.
Proof.
  destruct m; simpl in a |- *;
    repeat match goal with p : (_ * _)%type |- _ => destruct p end;
    unfold Dyn.well_typed; cbn [Dyn.annotations Dyn.conforms Py.is_str andb];
    rewrite ?is_str_list_str_list; reflexivity.
Qed.

Lemma well_typed_decode (m : Method.t) (args : list Py.value) :
  Dyn.well_typed m args = true -> exists a, args = Dyn.encode m a.
Proof.
  unfold Dyn.well_typed.
  destruct m; cbn [Dyn.annotations];
    do 4 (try destruct args as [|? args]); cbn [Dyn.conforms];
    try discriminate; intros H;
    repeat match goal with
      | H : _ && _ = true |- _ => apply andb_true_iff in H as [? H]
      | H : Py.is_str _ = true |- _ =>
          apply is_str_inv in H as [? ->]
      | H : Py.is_str_list _ = true |- _ =>
          apply is_str_list_inv in H as [? ->]
      end;
    try discriminate;
    try (now exists tt);
    try (now eexists; reflexivity);
    try (now eexists (_, _); reflexivity);
    try (now eexists (_, _, _); reflexivity).
Qed.

(** The untyped methods do fail on other inputs: [None] is no list. *)
Example install_pkgs_none_raises :
  Dyn.invoke Method.install_pkgs [Py.VNone] = Py.Raise Py.TypeError
  /\ Dyn.invoke Method.make_chroot_pkg [Py.VStr "/c"; Py.VStr "build"; Py.VNone]
     = Py.Raise Py.TypeError
  /\ Dyn.invoke Method.upgrade [Py.VStr "now"] = Py.Raise Py.TypeError.
Proof. repeat split. Qed.

(** C6: called with arguments that fit its annotations (empty lists and
    empty strings included), every default method returns a vector: the
    untyped method raises nothing and its result is the list of tokens
    the typed method computes for those arguments. *)
Theorem construction_succeeds (m : Method.t) (args : list Py.value)
        (Hty : Dyn.well_typed m args = true) :
  exists a : Method.sig m,
    args = Dyn.encode m a
    /\ Dyn.invoke m args = Py.Ok (Py.str_list (Commands_new m a)).
Proof.
  destruct (well_typed_decode m args Hty) as [a ->].
  exists a. split; [reflexivity|apply dyn_invoke_encode].
Qed.

Lemma construction_succeeds_witness :
  exists a : Method.sig Method.install_pkgs,
    [Py.VList []] = Dyn.encode Method.install_pkgs a
    /\ Dyn.invoke Method.install_pkgs [Py.VList []]
       = Py.Ok (Py.str_list (Commands_new Method.install_pkgs a)).
Proof.
  apply (construction_succeeds Method.install_pkgs [Py.VList []]).
  reflexivity.
Defined.

(** ** Comparing versions *)

(** C7: the default [compare_versions] returns three tokens: [vercmp],
    the installed version, the new version, in that order. *)
Theorem compare_versions_vector (installed_version new_version : string) :
  commands initial Method.compare_versions (installed_version, new_version)
  = [program Method.compare_versions; installed_version; new_version]
  /\ program Method.compare_versions = "vercmp"
  /\ Commands.compare_versions installed_version new_version
     = ["vercmp"; installed_version; new_version]
  /\ length (Commands.compare_versions installed_version new_version) = 3.
Proof. repeat split. Qed.

(** ** Package file suffixes *)

Lemma endswith_refl (s : string) : endswith s s = true.
Proof. destruct s; cbn -[String.eqb]; now rewrite String.eqb_refl. Qed.

Lemma endswith_app (p s : string) : endswith (p ++ s) s = true.
Proof.
  induction p as [|c p IH]; cbn -[String.eqb].
  - apply endswith_refl.
  - rewrite IH. now destruct (String.eqb _ _).
Qed.

Lemma recognized_iff (exts : list string) (name : string) :
  recognized exts name = true <->
  exists s, In s exts /\ endswith name s = true.
Proof. apply existsb_exists. Qed.

Lemma recognized_perm (exts exts' : list string) (name : string) :
  Permutation exts exts' -> recognized exts name = recognized exts' name.
Proof.
  intros P. apply eq_true_iff_eq. rewrite !recognized_iff.
  split; intros [s [Hin He]]; exists s; split; auto.
  - now apply (Permutation_in s P).
  - now apply (Permutation_in s (Permutation_sym P)).
Qed.

(** C8: [valid_pkgexts] is not empty; "pkgname" followed by one of its
    suffixes is recognized; a name that ends with none of them is not;
    and the answer is the same for the suffixes in any other order. *)
Theorem valid_pkgexts_membership (s name : string) (exts' : list string) :
  valid_pkgexts initial <> []
  /\ (In s (valid_pkgexts initial) ->
      recognized (valid_pkgexts initial) ("pkgname" ++ s) = true)
  /\ ((forall e, In e (valid_pkgexts initial) -> endswith name e = false) ->
      recognized (valid_pkgexts initial) name = false)
  /\ (Permutation (valid_pkgexts initial) exts' ->
      recognized exts' name = recognized (valid_pkgexts initial) name).
Proof.
  split; [discriminate|]. split; [|split].
  - intros Hin. apply recognized_iff. exists s. split; [exact Hin|].
    apply endswith_app.
  - intros Hnone. apply not_true_is_false. intros H.
    apply recognized_iff in H as [e [Hin He]].
    rewrite (Hnone e Hin) in He. discriminate.
  - intros P. symmetry. now apply recognized_perm.
Qed.

Lemma valid_pkgexts_membership_witness :
  recognized (valid_pkgexts initial) ("pkgname" ++ ".pkg.tar.zst") = true
  /\ recognized (valid_pkgexts initial) "PKGBUILD" = false
  /\ recognized (rev (valid_pkgexts initial)) "PKGBUILD"
     = recognized (valid_pkgexts initial) "PKGBUILD".
Proof.
  pose proof (valid_pkgexts_membership
                ".pkg.tar.zst" "PKGBUILD" (rev (valid_pkgexts initial)))
    as [_ [Hin [Hout Hperm]]].
  split; [|split].
  - apply Hin. simpl. tauto.
  - apply Hout. intros e He. simpl in He.
    repeat (destruct He as [<-|He]; [reflexivity|]). destruct He.
  - apply Hperm, Permutation_rev.
Defined.

(** ** The optional timeout *)

(** C9: [aur_rpc_timeout] starts as the integer 30, and a configuration
    in which it has been set to [None] differs in that field from one in
    which it has been set to any integer, zero included. *)
Theorem aur_rpc_timeout_optional (cfg : config) (n : Z) :
  aur_rpc_timeout initial = Some 30%Z
  /\ aur_rpc_timeout (set_aur_rpc_timeout None cfg)
     <> aur_rpc_timeout (set_aur_rpc_timeout (Some n) cfg)
  /\ aur_rpc_timeout (set_aur_rpc_timeout None cfg)
     <> aur_rpc_timeout (set_aur_rpc_timeout (Some 0%Z) cfg)
  /\ aur_rpc_timeout (set_aur_rpc_timeout None cfg) <> aur_rpc_timeout initial.
Proof. repeat split; discriminate. Qed.

(** ** Empty lists *)

(** C10: on the empty list a default list-taking method returns its
    fixed prefix and nothing else. *)
Theorem empty_list_gives_prefix (o : ListOp.t) (c u : string) :
  ListOp.run Commands_new o [] = ListOp.prefix o
  /\ Commands.install_pkgs [] = ["pacman"; "-S"; "--asexplicit"]
  /\ Commands.remove [] = ["pacman"; "-Rs"]
  /\ Commands.enable_units [] = ["systemctl"; "enable"; "--now"; "--quiet"]
  /\ Commands.make_chroot_pkg c u [] = ["makechrootpkg"; "-r"; c; "-U"; u].
Proof.
  split.
  - destruct o; reflexivity.
  - repeat split.
Qed.

(** * Further properties of the command builders *)

(** ** A vector determines the call it came from *)

Lemma flagged_inj (flag : string) (l l' : list string) :
  flat_map (fun x => [flag; x]) l = flat_map (fun x => [flag; x]) l' ->
  l = l'.
Proof.
  revert l'. induction l as [|x l IH]; intros [|y l']; simpl;
    try discriminate; auto.
  intros H. injection H as Hxy Hl. subst y. f_equal. now apply IH.
Qed.

Lemma Commands_new_inj (m : Method.t) (a b : Method.sig m) :
  Commands_new m a = Commands_new m b -> a = b.
Proof.
  destruct m; simpl in a, b |- *;
    repeat match goal with p : (_ * _)%type |- _ => destruct p end;
    repeat match goal with u : unit |- _ => destruct u end;
    try reflexivity;
    try (intros H; injection H; intros; subst; reflexivity).
  rewrite !make_chroot_pkg_unfold. intros H.
  injection H as Hd Hu Hl. subst.
  now rewrite (flagged_inj _ _ _ Hl).
Qed.

(** X1: a default method maps different arguments to different vectors,
    so the arguments can be read back from the vector. *)
Theorem different_arguments_different_vectors
        (m : Method.t) (a b : Method.sig m) (Hab : a <> b) :
  Commands_new m a <> Commands_new m b.
Proof.
  intros H. apply Hab. now apply Commands_new_inj.
Qed.

Lemma different_arguments_different_vectors_witness :
  Commands_new Method.make_chroot_pkg ("/c", "build", ["a"; "b"])
  <> Commands_new Method.make_chroot_pkg ("/c", "build", ["a"; "-I"; "b"]).
Proof.
  apply (different_arguments_different_vectors Method.make_chroot_pkg).
  discriminate.
Defined.

(** X2: when two default methods return the same vector they are the
    same method, or both enable units, or both disable units. *)
Theorem same_vector_same_method
        (m m' : Method.t) (a : Method.sig m) (a' : Method.sig m')
        (H : Commands_new m a = Commands_new m' a') :
  m = m'
  \/ (In m enabling /\ In m' enabling)
  \/ (In m disabling /\ In m' disabling).
Proof.
  destruct m, m'; simpl in a, a', H;
    repeat match goal with p : (_ * _)%type |- _ => destruct p end;
    rewrite ?make_chroot_pkg_unfold in H; simpl in H;
    first [ left; reflexivity
          | discriminate H
          | right; left; simpl; now auto
          | right; right; simpl; now auto ].
Qed.

Lemma same_vector_same_method_witness :
  Method.disable_user_units = Method.disable_units
  \/ (In Method.disable_user_units enabling /\ In Method.disable_units enabling)
  \/ (In Method.disable_user_units disabling
      /\ In Method.disable_units disabling).
Proof.
  apply (same_vector_same_method
           Method.disable_user_units Method.disable_units
           ["sshd.service"] ["sshd.service"]).
  reflexivity.
Defined.

(** X3: [enable_units] and [enable_user_units] return the same vector
    exactly when the first unit given to [enable_units] is the token
    "--user" and the remaining units are those of [enable_user_units]. *)
Theorem enable_units_flag_collision (units units' : list string) :
  Commands.enable_units units = Commands.enable_user_units units'
  <-> units = user_flag :: units'.
Proof.
  unfold Commands.enable_units, Commands.enable_user_units, user_flag.
  simpl. split.
  - intros H. now injection H.
  - now intros ->.
Qed.

Lemma enable_units_flag_collision_witness :
  Commands.enable_units ["--user"; "syncthing.service"]
  = Commands.enable_user_units ["syncthing.service"].
Proof.
  apply (proj2 (enable_units_flag_collision
                  ["--user"; "syncthing.service"] ["syncthing.service"])).
  reflexivity.
Defined.

(** ** How the list shows in the vector *)

Lemma payload_app (o : ListOp.t) (l1 l2 : list string) :
  ListOp.payload o (l1 ++ l2) = ListOp.payload o l1 ++ ListOp.payload o l2.
Proof.
  destruct o; simpl; try reflexivity. apply flat_map_app.
Qed.

(** X4: giving a default list-taking method two lists joined together
    returns its vector for the first list, followed by the tokens the
    second list contributes. *)
Theorem run_app (o : ListOp.t) (l1 l2 : list string) :
  ListOp.run Commands_new o (l1 ++ l2)
  = ListOp.run Commands_new o l1 ++ ListOp.payload o l2
  /\ ListOp.run Commands_new o (l1 ++ l2)
     = ListOp.run Commands_new o l1
         ++ skipn (length (ListOp.prefix o)) (ListOp.run Commands_new o l2).
Proof.
  rewrite !run_default, payload_app, app_assoc.
  split; [reflexivity|]. f_equal.
  rewrite skipn_app, Nat.sub_diag, skipn_all. reflexivity.
Qed.

Lemma nth_error_flag (flag : string) (l : list string) :
  forall i, i < length l ->
    nth_error (flat_map (fun x => [flag; x]) l) (2 * i) = Some flag.
Proof.
  induction l as [|x l IH]; intros [|i] Hi; simpl in *; try lia; auto.
  replace (i + S (i + 0)) with (S (2 * i)) by lia.
  apply IH. lia.
Qed.

(** X5: in the vector of [make_chroot_pkg] every package file has a
    "-I" of its own right before it: for the [i]-th file, the token [2 * i]
    places after the five leading tokens is "-I" and the next one is the
    file. *)
Theorem make_chroot_pkg_flags_each_file
        (chroot_dir user : string) (pkgfiles : list string) (i : nat)
        (Hi : i < length pkgfiles) :
  nth_error (Commands.make_chroot_pkg chroot_dir user pkgfiles) (5 + 2 * i)
  = Some "-I"
  /\ nth_error (Commands.make_chroot_pkg chroot_dir user pkgfiles)
               (5 + 2 * i + 1)
     = nth_error pkgfiles i.
Proof.
  rewrite make_chroot_pkg_unfold.
  change 5 with (length ["makechrootpkg"; "-r"; chroot_dir; "-U"; user]).
  split.
  - rewrite nth_error_after. now apply nth_error_flag.
  - rewrite <- Nat.add_assoc, nth_error_after. apply nth_error_flagged.
Qed.

Lemma make_chroot_pkg_flags_each_file_witness :
  nth_error (Commands.make_chroot_pkg "/c" "build" ["a.pkg.tar"; "b.pkg.tar"])
            (5 + 2 * 1)
  = Some "-I"
  /\ nth_error (Commands.make_chroot_pkg "/c" "build"
                                         ["a.pkg.tar"; "b.pkg.tar"])
               (5 + 2 * 1 + 1)
     = nth_error ["a.pkg.tar"; "b.pkg.tar"] 1.
Proof.
  apply (make_chroot_pkg_flags_each_file
           "/c" "build" ["a.pkg.tar"; "b.pkg.tar"] 1).
  simpl. lia.
Defined.

Lemma in_flagged (flag tok : string) (l : list string) :
  In tok (flat_map (fun x => [flag; x]) l)
  <-> In tok l \/ (l <> [] /\ tok = flag).
Proof.
  rewrite in_flat_map. split.
  - intros [x [Hx [H|[H|[]]]]]; subst.
    + right. split; [|reflexivity]. intros ->. destruct Hx.
    + now left.
  - intros [H|[Hne ->]].
    + exists tok. split; [exact H|]. simpl. auto.
    + destruct l as [|x l]; [now elim Hne|].
      exists x. split; simpl; auto.
Qed.

(** X6: a token of the vector of a default list-taking method is a token
    of the fixed prefix, or one of the given items, or, for
    [make_chroot_pkg] on a list that is not empty, the flag "-I"; and
    every such token is in the vector. *)
Theorem tokens_of_list_method (o : ListOp.t) (l : list string) (tok : string) :
  In tok (ListOp.run Commands_new o l)
  <-> In tok (ListOp.prefix o)
      \/ In tok l
      \/ (ListOp.stride o = 2 /\ l <> [] /\ tok = "-I").
Proof.
  rewrite run_default, in_app_iff.
  destruct o; simpl ListOp.payload; simpl ListOp.stride;
    try (split; [tauto | intros [H|[H|[H _]]]; [tauto|tauto|discriminate H]]).
  rewrite in_flagged. tauto.
Qed.

(** ** When an untyped call raises, and what it returns when it does not *)

Ltac split_args args :=
  destruct args as [|? [|? [|? [|? ?]]]].

Ltac split_values :=
  repeat match goal with v : Py.value |- _ => destruct v end.

Ltac unfold_dyn :=
  cbv [Dyn.invoke Dyn.list_pkgs Dyn.list_foreign_pkgs_versioned
       Dyn.install_pkgs Dyn.install_files Dyn.set_as_explicitly_installed
       Dyn.install_deps Dyn.is_installable Dyn.upgrade Dyn.remove
       Dyn.enable_units Dyn.disable_units Dyn.enable_user_units
       Dyn.disable_user_units Dyn.compare_versions Dyn.git_clone
       Dyn.git_diff Dyn.git_get_commit_id Dyn.review_file Dyn.make_chroot
       Dyn.make_chroot_pkg Py.add Py.bind Py.iter
       accepted is_list is_iterable].

Lemma invoke_accepted (m : Method.t) (args : list Py.value) :
  accepted m args = true -> exists v, Dyn.invoke m args = Py.Ok v.
Proof.
  destruct m; split_args args; unfold_dyn; try discriminate;
    split_values; try discriminate; intros _; eexists; reflexivity.
Qed.

Lemma invoke_rejected (m : Method.t) (args : list Py.value) :
  accepted m args = false -> Dyn.invoke m args = Py.Raise Py.TypeError.
Proof.
  destruct m; split_args args; unfold_dyn; try discriminate;
    split_values; try discriminate; reflexivity.
Qed.

(** X7: a call of a default method with arbitrary Python values raises
    [TypeError] exactly when the number of arguments is wrong, or the
    argument that the body adds to a list display is not a list, or the
    argument [make_chroot_pkg] loops over is not iterable; in every other
    case it returns a value, whatever the other arguments are. *)
Theorem invoke_raises_iff (m : Method.t) (args : list Py.value) :
  (Dyn.invoke m args = Py.Raise Py.TypeError <-> accepted m args = false)
  /\ ((exists v, Dyn.invoke m args = Py.Ok v) <-> accepted m args = true).
Proof.
  destruct (accepted m args) eqn:E.
  - destruct (invoke_accepted m args E) as [v Hv]. rewrite Hv.
    split; split; try discriminate; auto. now exists v.
  - rewrite (invoke_rejected m args E).
    split; split; try discriminate; auto. intros [v Hv]. discriminate Hv.
Qed.

Lemma invoke_raises_iff_witness :
  Dyn.invoke Method.install_pkgs [Py.VStr "firefox"] = Py.Raise Py.TypeError
  /\ exists v,
      Dyn.invoke Method.is_installable [Py.VNone] = Py.Ok v.
Proof.
  split.
  - apply (proj1 (invoke_raises_iff Method.install_pkgs [Py.VStr "firefox"])).
    reflexivity.
  - apply (proj2 (invoke_raises_iff Method.is_installable [Py.VNone])).
    reflexivity.
Defined.




(** ** One extension per file name *)

Lemma endswith_step (s suffix : string) :
  endswith s suffix = true ->
  s = suffix
  \/ exists c s', s = String c s' /\ endswith s' suffix = true.
Proof.
  destruct s as [|c s']; cbn -[String.eqb].
  - destruct (String.eqb_spec EmptyString suffix) as [E|E]; auto.
    discriminate.
  - destruct (String.eqb_spec (String c s') suffix) as [E|E]; auto.
    intros H. right. now exists c, s'.
Qed.

Lemma endswith_comparable (s a b : string) :
  endswith s a = true -> endswith s b = true ->
  endswith a b = true \/ endswith b a = true.
Proof.
  induction s as [|c s IH]; intros Ha Hb;
    destruct (endswith_step _ _ Ha) as [<-|[c1 [s1 [E1 Ha']]]]; auto;
    destruct (endswith_step _ _ Hb) as [<-|[c2 [s2 [E2 Hb']]]]; auto;
    try discriminate.
  injection E1 as <- <-. injection E2 as <- <-. now apply IH.
Qed.

Lemma valid_pkgexts_suffix_free :
  forallb (fun e1 =>
             forallb (fun e2 => implb (endswith e1 e2) (String.eqb e1 e2))
                     (valid_pkgexts initial))
          (valid_pkgexts initial) = true.
Proof. vm_compute. reflexivity. Qed.

(** X10: no suffix of [valid_pkgexts] is the end of another one, so a
    file name ends with at most one of them. *)
Theorem valid_pkgexts_unambiguous (name e1 e2 : string)
        (H1 : In e1 (valid_pkgexts initial))
        (H2 : In e2 (valid_pkgexts initial))
        (E1 : endswith name e1 = true)
        (E2 : endswith name e2 = true) :
  e1 = e2.
Proof.
  pose proof valid_pkgexts_suffix_free as F.
  rewrite forallb_forall in F.
  assert (G : forall a b, In a (valid_pkgexts initial) ->
                          In b (valid_pkgexts initial) ->
                          endswith a b = true -> a = b).
  { intros a b Ha Hb Hab. specialize (F a Ha). rewrite forallb_forall in F.
    specialize (F b Hb). rewrite Hab in F. now apply String.eqb_eq. }
  destruct (endswith_comparable name e1 e2 E1 E2) as [H|H].
  - now apply G.
  - symmetry. now apply G.
Qed.

Lemma valid_pkgexts_unambiguous_witness : ".pkg.tar.lz" = ".pkg.tar.lz".
Proof.
  apply (valid_pkgexts_unambiguous "decman-0.3-1-any.pkg.tar.lz");
    try reflexivity; simpl; tauto.
Defined.
